(** * Shallow embedding of the two data-preparation scripts of ray-demos

    - [intro-core/load_images_processing.py]: checks whether the image cache
      directory [DATA_DIR] exists and, if it does not, creates it and
      downloads every URL of [t_utils.URLS] into it.
    - [intro-train-cv/load_images_segmentation.py]: loads the
      ["scene_parse_150"] dataset, full or truncated split, selected by
      [SMALL_DATA].

    Python's effects are modelled by a small state-and-exception monad: the
    state is the file system together with a log of the operating-system
    and library calls the script issues (each entry carries the file system
    as it was when the call was issued).  A raised exception keeps the state
    reached so far, as Python does: side effects before a [raise] persist. *)

From Stdlib Require Import String Ascii List Bool Arith Lia.
Import ListNotations.
Open Scope string_scope.

(** ** File system *)

(** A regular file, stored under directory [fdir] with base name [fname]. *)
Record file := mkFile { fdir : string; fname : string; fdata : string }.

Record fsys := mkFs { dirs : list string; files : list file }.

Definition file_path (f : file) : string := fdir f ++ "/" ++ fname f.

(** [os.path.exists p]: true for a directory and for a regular file. *)
Definition path_exists (s : fsys) (p : string) : bool :=
  existsb (String.eqb p) (dirs s) || existsb (fun f => String.eqb (file_path f) p) (files s).

Definition is_dir (s : fsys) (p : string) : bool := existsb (String.eqb p) (dirs s).

(** Whether directory [d] holds at least one file. *)
Definition dir_nonempty (s : fsys) (d : string) : bool :=
  existsb (fun f => String.eqb (fdir f) d) (files s).

(** Writing [data] to [d/n] ([open(..., "wb")]): creates or replaces the file. *)
Definition write_file (s : fsys) (d n data : string) : fsys :=
  mkFs (dirs s)
       (mkFile d n data
          :: filter (fun f => negb (String.eqb (fdir f) d && String.eqb (fname f) n)) (files s)).

Definition add_dir (s : fsys) (d : string) : fsys := mkFs (d :: dirs s) (files s).

(** ** Process environment

    What a run depends on besides the file system: the working directory
    returned by [os.getcwd()], the command line and environment variables
    (which neither script reads), the OS's answer to an [os.mkdir] of a path
    that [os.path.exists] reports absent, what a download fetches, and the
    dataset hub as seen by [load_dataset]. *)

Definition dataset := list string.

Inductive exn :=
| FileExistsError (p : string)
| PermissionError (p : string)
| FileNotFoundError (p : string)
| DownloadError (url : string)
| DatasetError (name split : string)
| OSError (errno p : string).

(** What fetching a URL yields: the whole payload, an exception before any
    byte is written, or an exception after part of the payload has been
    written. *)
Inductive fetch :=
| Fetched (data : string)
| FetchFailed (x : exn)
| Interrupted (partial : string) (x : exn).

Record env := mkEnv {
  cwd : string;
  argv : list string;
  environ : list (string * string);
  mkdir_err : string -> option exn;
  net : string -> fetch;
  hub : string -> string -> dataset + exn
}.

(** [mkdir_err e p] is [None] when the OS creates directory [p], and
    otherwise the exception [os.mkdir(p)] raises: [FileNotFoundError] for a
    missing parent, [PermissionError], [OSError] for a read-only or full
    file system, [FileExistsError] for a dangling symbolic link, which
    [os.path.exists] reports absent. *)
Definition mkdir_ok (e : env) (p : string) : bool :=
  match mkdir_err e p with None => true | Some _ => false end.

(** ** The monad *)

Inductive event :=
| Exists (p : string)
| Mkdir (p : string)
| Print (msg : string)
| Download (url dir : string)
| LoadDataset (name split : string).

Record world := mkWorld { w_fs : fsys; w_log : list (event * fsys) }.

Definition M (A : Type) : Type := world -> (A + exn) * world.

Definition ret {A} (a : A) : M A := fun w => (inl a, w).

Definition bind {A B} (m : M A) (k : A -> M B) : M B :=
  fun w => match m w with
           | (inl a, w') => k a w'
           | (inr x, w') => (inr x, w')
           end.

Notation "x <- m ;; k" := (bind m (fun x => k))
  (at level 61, m at next level, right associativity).
Notation "m ;; k" := (bind m (fun _ => k))
  (at level 61, right associativity).

Definition raise {A} (x : exn) : M A := fun w => (inr x, w).

Definition get_fs : M fsys := fun w => (inl (w_fs w), w).

Definition put_fs (s : fsys) : M unit := fun w => (inl tt, mkWorld s (w_log w)).

(** Records that a call is issued, with the file system at that moment. *)
Definition log (ev : event) : M unit :=
  fun w => (inl tt, mkWorld (w_fs w) (w_log w ++ [(ev, w_fs w)])).

(** Python's [for x in xs: body(x)]. *)
Fixpoint for_each {A} (xs : list A) (body : A -> M unit) : M unit :=
  match xs with
  | [] => ret tt
  | x :: xs' => body x ;; for_each xs' body
  end.

(** ** Library calls *)

(** [os.getcwd()] returns [cwd e].  A process whose working directory has
    been removed raises [FileNotFoundError] here, at line 6, before any call
    modelled below; the development describes the runs in which
    [os.getcwd()] returns. *)
Definition os_getcwd (e : env) : string := cwd e.

Definition os_path_exists (p : string) : M bool :=
  log (Exists p) ;; s <- get_fs ;; ret (path_exists s p).

Definition os_mkdir (e : env) (p : string) : M unit :=
  log (Mkdir p) ;;
  s <- get_fs ;;
  if path_exists s p then raise (FileExistsError p)
  else match mkdir_err e p with
       | None => put_fs (add_dir s p)
       | Some x => raise x
       end.

Definition print (msg : string) : M unit := log (Print msg).

(** [tqdm.tqdm(xs)] iterates [xs] unchanged; the progress bar it draws on
    stderr is not part of the modelled state. *)
Definition tqdm {A} (xs : list A) : list A := xs.

(** [pathlib.Path(s)]: the script only uses the path it builds, so the
    path is kept as the string it is built from. *)
Definition Path (s : string) : string := s.

(** Last component of a URL, the name a download is stored under. *)
Fixpoint basename_from (s acc : string) : string :=
  match s with
  | EmptyString => acc
  | String c s' =>
      if Ascii.eqb c "/"%char then basename_from s' ""
      else basename_from s' (acc ++ String c "")
  end.

Definition basename (url : string) : string := basename_from url "".

(** Modelled from the spec: [tasks_helper_utils.download_images(url, dir)],
    whose source is not part of the repository's files shown ("the URL list
    and helper download function referenced are defined elsewhere").  The
    spec says it fetches the URL into the target directory and that network
    failures and partial writes are not handled.  So a call writes the
    fetched bytes to a file of [dir] (which must exist), raises before
    writing when the fetch fails, or writes part of the file and then
    raises, leaving the partial file behind. *)
Definition download_images (e : env) (url dir : string) : M unit :=
  log (Download url dir) ;;
  match net e url with
  | FetchFailed x => raise x
  | Fetched data =>
      s <- get_fs ;;
      if is_dir s dir then put_fs (write_file s dir (basename url) data)
      else raise (FileNotFoundError (dir ++ "/" ++ basename url))
  | Interrupted part x =>
      s <- get_fs ;;
      if is_dir s dir then put_fs (write_file s dir (basename url) part) ;; raise x
      else raise (FileNotFoundError (dir ++ "/" ++ basename url))
  end.

(** ** [intro-core/load_images_processing.py] *)

Definition DATA_DIR (e : env) : string := Path (os_getcwd e ++ "/task_images").

Definition download_msg : string := "downloading images ...".

(** The module body; [URLS] is [t_utils.URLS]. *)
Definition load_images_processing (URLS : list string) (e : env) : M unit :=
  ex <- os_path_exists (DATA_DIR e) ;;
  if negb ex then
    os_mkdir e (DATA_DIR e) ;;
    print download_msg ;;
    for_each (tqdm URLS) (fun url => download_images e url (DATA_DIR e))
  else ret tt.

(** ** [intro-train-cv/load_images_segmentation.py] *)

(** [datasets.load_dataset(name, split=split)]: a third-party call, answered
    by the hub of the environment. *)
Definition load_dataset (e : env) (name split : string) : M dataset :=
  log (LoadDataset name split) ;;
  match hub e name split with
  | inl d => ret d
  | inr x => raise x
  end.

Definition SMALL_DATA : bool := false.
Definition DATASET_NAME : string := "scene_parse_150".

(** The module body for a given value of the [SMALL_DATA] constant; it
    returns [train_dataset]. *)
Definition load_images_segmentation_with (small : bool) (e : env) : M dataset :=
  if small then load_dataset e DATASET_NAME "train[:160]"
  else load_dataset e DATASET_NAME "train".

(** The script as shipped. *)
Definition load_images_segmentation (e : env) : M dataset :=
  load_images_segmentation_with SMALL_DATA e.

(** Running a script from a file system, with an empty call log. *)
Definition run {A} (m : M A) (s : fsys) : (A + exn) * world := m (mkWorld s []).

Definition outcome {A} (r : (A + exn) * world) : A + exn := fst r.
Definition final_fs {A} (r : (A + exn) * world) : fsys := w_fs (snd r).
Definition calls {A} (r : (A + exn) * world) : list event := map fst (w_log (snd r)).

(** ** Basic facts about the embedding *)

Definition dl_loop (e : env) (D : string) (us : list string) : M unit :=
  for_each us (fun url => download_images e url D).

Lemma is_dir_add_dir s d : is_dir (add_dir s d) d = true.
Proof. unfold is_dir, add_dir; simpl. now rewrite String.eqb_refl. Qed.

Lemma dirs_write_file s d n x : dirs (write_file s d n x) = dirs s.
Proof. reflexivity. Qed.

Lemma is_dir_write_file s d n x p : is_dir (write_file s d n x) p = is_dir s p.
Proof. reflexivity. Qed.

Lemma dir_nonempty_write_file s d n x : dir_nonempty (write_file s d n x) d = true.
Proof. unfold dir_nonempty, write_file; simpl. now rewrite String.eqb_refl. Qed.

Lemma dir_nonempty_write_file_mono s d d' n x :
  dir_nonempty s d' = true -> dir_nonempty (write_file s d n x) d' = true.
Proof.
  unfold dir_nonempty, write_file; simpl. intros H.
  apply existsb_exists in H as [f [Hin Hf]].
  destruct (String.eqb d d') eqn:E; [reflexivity|].
  apply orb_true_intro; right. apply existsb_exists. exists f. split; [|exact Hf].
  apply filter_In. split; [exact Hin|].
  apply String.eqb_eq in Hf. subst d'.
  rewrite String.eqb_sym, E. reflexivity.
Qed.

Lemma write_file_keeps s d n x f :
  In f (files s) -> fdir f <> d -> In f (files (write_file s d n x)).
Proof.
  intros Hin Hne. simpl. right. apply filter_In. split; [exact Hin|].
  apply String.eqb_neq in Hne. now rewrite Hne.
Qed.

(** A write replaces at most the file it targets. *)
Lemma write_file_in s d n x f :
  In f (files s) -> In f (files (write_file s d n x)) \/ (fdir f = d /\ fname f = n).
Proof.
  intros Hin. simpl.
  destruct (String.eqb (fdir f) d && String.eqb (fname f) n) eqn:E.
  - right. apply andb_prop in E as [E1 E2].
    split; apply String.eqb_eq; assumption.
  - left. right. apply filter_In. split; [exact Hin|]. now rewrite E.
Qed.

(** One call of [download_images] into an existing directory. *)
Lemma download_images_step e u D w :
  is_dir (w_fs w) D = true ->
  download_images e u D w =
  match net e u with
  | Fetched data =>
      (inl tt, mkWorld (write_file (w_fs w) D (basename u) data)
                       (w_log w ++ [(Download u D, w_fs w)]))
  | FetchFailed x => (inr x, mkWorld (w_fs w) (w_log w ++ [(Download u D, w_fs w)]))
  | Interrupted part x =>
      (inr x, mkWorld (write_file (w_fs w) D (basename u) part)
                      (w_log w ++ [(Download u D, w_fs w)]))
  end.
Proof.
  intros H. destruct w as [s l]. unfold download_images, bind, log, get_fs, put_fs, raise, ret.
  simpl in *. destruct (net e u); simpl; try rewrite H; reflexivity.
Qed.

(** Every call of [download_images] appends exactly its own entry to the log. *)
Lemma download_images_log e u D w :
  w_log (snd (download_images e u D w)) = (w_log w ++ [(Download u D, w_fs w)])%list.
Proof.
  destruct w as [s l]. unfold download_images, bind, log, get_fs, put_fs, raise, ret.
  simpl. destruct (net e u); simpl; destruct (is_dir s D); reflexivity.
Qed.

(** The script up to its download loop, when the cache directory is
    missing and the OS creates it. *)
Lemma load_images_processing_absent URLS e s :
  path_exists s (DATA_DIR e) = false ->
  mkdir_err e (DATA_DIR e) = None ->
  run (load_images_processing URLS e) s =
  dl_loop e (DATA_DIR e) URLS
    (mkWorld (add_dir s (DATA_DIR e))
       [(Exists (DATA_DIR e), s); (Mkdir (DATA_DIR e), s);
        (Print download_msg, add_dir s (DATA_DIR e))]).
Proof.
  intros Hex Hok.
  unfold run, load_images_processing, os_path_exists, os_mkdir, print, tqdm, dl_loop,
    bind, log, get_fs, put_fs, ret, raise; simpl.
  rewrite Hex; simpl. rewrite Hex, Hok. reflexivity.
Qed.

(** ... and when [os.mkdir] raises. *)
Lemma load_images_processing_refused URLS e s x :
  path_exists s (DATA_DIR e) = false ->
  mkdir_err e (DATA_DIR e) = Some x ->
  run (load_images_processing URLS e) s =
  (inr x, mkWorld s [(Exists (DATA_DIR e), s); (Mkdir (DATA_DIR e), s)]).
Proof.
  intros Hex Hok.
  unfold run, load_images_processing, os_path_exists, os_mkdir, print, tqdm, dl_loop,
    bind, log, get_fs, put_fs, ret, raise; simpl.
  rewrite Hex; simpl. rewrite Hex, Hok. reflexivity.
Qed.

Lemma mkdir_err_cases e p : mkdir_err e p = None \/ exists x, mkdir_err e p = Some x.
Proof. destruct (mkdir_err e p); eauto. Qed.

Lemma mkdir_ok_err e p : mkdir_ok e p = true -> mkdir_err e p = None.
Proof. unfold mkdir_ok. destruct (mkdir_err e p); congruence. Qed.

Lemma load_images_processing_present URLS e s :
  path_exists s (DATA_DIR e) = true ->
  run (load_images_processing URLS e) s =
  (inl tt, mkWorld s [(Exists (DATA_DIR e), s)]).
Proof.
  intros Hex.
  unfold run, load_images_processing, os_path_exists, bind, log, get_fs, ret; simpl.
  rewrite Hex. reflexivity.
Qed.

Lemma for_each_app {A} (xs ys : list A) (body : A -> M unit) w :
  for_each (xs ++ ys) body w = (for_each xs body ;; for_each ys body) w.
Proof.
  revert w. induction xs as [|x xs IH]; intros w; simpl; unfold bind, ret; [reflexivity|].
  destruct (body x w) as [[[]|y] w']; [|reflexivity].
  rewrite IH. reflexivity.
Qed.

(** The download loop over an existing directory: it issues one call per
    URL of a prefix of the list, in order, every call finding the directory
    in place, stops at the first call that raises, creates no directory, and
    leaves the directory non-empty once a call has succeeded. *)
Lemma dl_loop_spec e D us w :
  is_dir (w_fs w) D = true ->
  exists k t,
    k <= length us /\
    w_log (snd (dl_loop e D us w)) = (w_log w ++ t)%list /\
    map fst t = map (fun u => Download u D) (firstn k us) /\
    Forall (fun p => is_dir (snd p) D = true) t /\
    dirs (w_fs (snd (dl_loop e D us w))) = dirs (w_fs w) /\
    (fst (dl_loop e D us w) = inl tt ->
       k = length us /\ (us <> [] -> dir_nonempty (w_fs (snd (dl_loop e D us w))) D = true)) /\
    (dir_nonempty (w_fs w) D = true -> dir_nonempty (w_fs (snd (dl_loop e D us w))) D = true).
Proof.
  revert w. induction us as [|u us IH]; intros w Hd.
  - exists 0, []. simpl. rewrite app_nil_r.
    repeat split; auto; try lia; congruence.
  - assert (Hstep : dl_loop e D (u :: us) w = (download_images e u D ;; dl_loop e D us) w)
      by reflexivity.
    destruct (net e u) as [data|x|part x] eqn:Hnet.
    + set (w1 := mkWorld (write_file (w_fs w) D (basename u) data)
                         (w_log w ++ [(Download u D, w_fs w)])%list).
      assert (Heq : dl_loop e D (u :: us) w = dl_loop e D us w1).
      { rewrite Hstep. unfold bind. rewrite (download_images_step e u D w Hd), Hnet.
        reflexivity. }
      rewrite Heq.
      assert (Hd1 : is_dir (w_fs w1) D = true) by (simpl; exact Hd).
      destruct (IH w1 Hd1) as (k & t & Hk & Hlog & Hmap & Hall & Hdirs & Hok & Hmono).
      exists (S k), ((Download u D, w_fs w) :: t).
      assert (Hne : dir_nonempty (w_fs (snd (dl_loop e D us w1))) D = true)
        by (apply Hmono; apply dir_nonempty_write_file).
      repeat split.
      * simpl. lia.
      * rewrite Hlog. simpl. rewrite <- app_assoc. reflexivity.
      * simpl. rewrite Hmap. reflexivity.
      * constructor; [exact Hd | exact Hall].
      * exact Hdirs.
      * match goal with Hr : _ = inl tt |- _ => destruct (Hok Hr) as [Hk2 _] end.
        simpl. lia.
      * intros; exact Hne.
      * intros; exact Hne.
    + rewrite Hstep. unfold bind. rewrite (download_images_step e u D w Hd), Hnet.
      exists 1, [(Download u D, w_fs w)]. simpl.
      repeat split; auto; try lia; try discriminate.
    + rewrite Hstep. unfold bind. rewrite (download_images_step e u D w Hd), Hnet.
      exists 1, [(Download u D, w_fs w)]. simpl.
      repeat split; auto; try lia; try discriminate.
      intros; apply dir_nonempty_write_file_mono; assumption.
Qed.

(** A download loop that raises did so in the call on some [u], after the
    calls on the URLs before [u] completed. *)
Lemma dl_loop_fail e D us w x w' :
  dl_loop e D us w = (inr x, w') ->
  exists pre u post w1,
    us = (pre ++ u :: post)%list /\
    dl_loop e D pre w = (inl tt, w1) /\
    download_images e u D w1 = (inr x, w').
Proof.
  revert w. induction us as [|u us IH]; intros w H.
  - discriminate.
  - assert (Hstep : dl_loop e D (u :: us) w = (download_images e u D ;; dl_loop e D us) w)
      by reflexivity.
    rewrite Hstep in H. unfold bind in H.
    destruct (download_images e u D w) as [[[]|y] w1'] eqn:Hd.
    + destruct (IH w1' H) as (pre & v & post & w1 & -> & Hpre & Hv).
      exists (u :: pre), v, post, w1. split; [reflexivity|]. split; [|exact Hv].
      change ((download_images e u D ;; dl_loop e D pre) w = (inl tt, w1)).
      unfold bind. rewrite Hd. exact Hpre.
    + injection H as -> ->. exists [], u, us, w. auto.
Qed.

Lemma is_dir_same_dirs s s' p : dirs s' = dirs s -> is_dir s' p = is_dir s p.
Proof. unfold is_dir. intros H. now rewrite H. Qed.

Lemma is_dir_path_exists s p : is_dir s p = true -> path_exists s p = true.
Proof. unfold path_exists, is_dir. intros H. now rewrite H. Qed.

Lemma load_dataset_calls e name split w :
  map fst (w_log (snd (load_dataset e name split w))) =
  (map fst (w_log w) ++ [LoadDataset name split])%list.
Proof.
  destruct w as [s l]. unfold load_dataset, bind, log, ret, raise; simpl.
  destruct (hub e name split); simpl; now rewrite map_app.
Qed.

(** ** Concrete runs *)

Definition home : string := "/home/ray".
Definition url_a : string := "https://example.org/images/a.jpg".
Definition url_b : string := "https://example.org/images/b.jpg".
Definition urls0 : list string := [url_a; url_b].

(** A fresh working directory without the cache. *)
Definition fs0 : fsys := mkFs [home] [].
(** The same directory after a previous run created the cache. *)
Definition fs_cached : fsys := mkFs [home; home ++ "/task_images"] [].
(** A working directory holding a file of its own. *)
Definition fs_notes : fsys := mkFs [home] [mkFile home "notes.txt" "todo"].
(** A regular file (not a directory) sits at the cache path. *)
Definition fs_stray : fsys := mkFs [home] [mkFile home "task_images" "stray"].

Definition env_ok : env :=
  mkEnv home [] [] (fun _ => None) (fun _ => Fetched "jpeg-bytes") (fun _ _ => inl ["row"]).
(** No network: every download fails before writing. *)
Definition env_offline : env :=
  mkEnv home [] [] (fun _ => None) (fun u => FetchFailed (DownloadError u))
        (fun n sp => inr (DatasetError n sp)).
(** The working directory is on a read-only file system: [os.mkdir] raises. *)
Definition env_readonly : env :=
  mkEnv home [] [] (fun p => Some (OSError "EROFS" p)) (fun _ => Fetched "jpeg-bytes")
        (fun _ _ => inl []).
(** Another working directory, same command line and environment variables. *)
Definition env_elsewhere : env :=
  mkEnv "/tmp" [] [] (fun _ => None) (fun _ => Fetched "jpeg-bytes") (fun _ _ => inl ["row"]).
(** The first image downloads; the connection drops while the second is
    being written. *)
Definition env_flaky : env :=
  mkEnv home [] [] (fun _ => None)
        (fun u => if String.eqb u url_b then Interrupted "jp" (DownloadError url_b)
                  else Fetched "jpeg-bytes")
        (fun _ _ => inl ["row"]).

Example run_ok_fs :
  final_fs (run (load_images_processing urls0 env_ok) fs0) =
  mkFs [home ++ "/task_images"; home]
       [mkFile (home ++ "/task_images") "b.jpg" "jpeg-bytes";
        mkFile (home ++ "/task_images") "a.jpg" "jpeg-bytes"].
Proof. vm_compute. reflexivity. Qed.

(** ** Claims about [load_images_processing.py] *)

(** C1 (counterexample).  A run that starts without the cache directory can
    end with it missing (the OS refuses [os.mkdir]) or present but empty
    (the first download raises) although [URLS] is non-empty. *)
Lemma C1_counterexample :
  path_exists fs0 (DATA_DIR env_offline) = false /\ urls0 <> [] /\
  dir_nonempty (final_fs (run (load_images_processing urls0 env_offline) fs0))
    (DATA_DIR env_offline) = false /\
  path_exists fs0 (DATA_DIR env_readonly) = false /\
  path_exists (final_fs (run (load_images_processing urls0 env_readonly) fs0))
    (DATA_DIR env_readonly) = false.
Proof. repeat split; try discriminate; vm_compute; reflexivity. Qed.

(** C1 (amended).  If [DATA_DIR] does not exist before the run and
    [os.mkdir] succeeds, then after the run, whether it completed or
    raised, [DATA_DIR] is a directory; if the run completed without an
    exception and [URLS] is non-empty, the directory holds a file. *)
Theorem load_images_processing_creates_cache URLS e s :
  path_exists s (DATA_DIR e) = false ->
  mkdir_ok e (DATA_DIR e) = true ->
  is_dir (final_fs (run (load_images_processing URLS e) s)) (DATA_DIR e) = true /\
  (outcome (run (load_images_processing URLS e) s) = inl tt -> URLS <> [] ->
   dir_nonempty (final_fs (run (load_images_processing URLS e) s)) (DATA_DIR e) = true).
Proof.
  intros Hex Hok. unfold final_fs, outcome.
  rewrite (load_images_processing_absent URLS e s Hex (mkdir_ok_err _ _ Hok)).
  match goal with |- context [dl_loop e ?D URLS ?w] =>
    destruct (dl_loop_spec e D URLS w (is_dir_add_dir s D))
      as (k & t & _ & _ & _ & _ & Hdirs & Hr & _) end.
  split.
  - rewrite (is_dir_same_dirs _ _ _ Hdirs). apply is_dir_add_dir.
  - intros Hr'. exact (proj2 (Hr Hr')).
Qed.

Lemma load_images_processing_creates_cache_witness :
  path_exists fs0 (DATA_DIR env_ok) = false /\ mkdir_ok env_ok (DATA_DIR env_ok) = true /\
  is_dir (final_fs (run (load_images_processing urls0 env_ok) fs0)) (DATA_DIR env_ok) = true /\
  (outcome (run (load_images_processing urls0 env_ok) fs0) = inl tt -> urls0 <> [] ->
   dir_nonempty (final_fs (run (load_images_processing urls0 env_ok) fs0)) (DATA_DIR env_ok) = true).
Proof.
  split; [vm_compute; reflexivity|]. split; [reflexivity|].
  apply (load_images_processing_creates_cache urls0 env_ok fs0); vm_compute; reflexivity.
Defined.

(** C2.  When [DATA_DIR] already exists (as a directory with any contents,
    or as any path [os.path.exists] accepts), the run completes, performs
    no [os.mkdir] and no [download_images] call (its only call is the
    existence check), and leaves the file system unchanged. *)
Theorem load_images_processing_cached_noop URLS e s :
  path_exists s (DATA_DIR e) = true ->
  outcome (run (load_images_processing URLS e) s) = inl tt /\
  final_fs (run (load_images_processing URLS e) s) = s /\
  calls (run (load_images_processing URLS e) s) = [Exists (DATA_DIR e)].
Proof.
  intros Hex. unfold outcome, final_fs, calls.
  rewrite (load_images_processing_present URLS e s Hex). repeat split.
Qed.

Lemma load_images_processing_cached_noop_witness :
  path_exists fs_cached (DATA_DIR env_ok) = true /\
  outcome (run (load_images_processing urls0 env_ok) fs_cached) = inl tt /\
  final_fs (run (load_images_processing urls0 env_ok) fs_cached) = fs_cached /\
  calls (run (load_images_processing urls0 env_ok) fs_cached) = [Exists (DATA_DIR env_ok)].
Proof.
  split; [vm_compute; reflexivity|].
  apply (load_images_processing_cached_noop urls0 env_ok fs_cached); vm_compute; reflexivity.
Defined.

(** C3 (counterexample).  Offline, a run that starts without the cache
    creates it and calls [download_images] for the first URL only: the
    exception of that call ends the run, so the second URL is never
    requested. *)
Lemma C3_counterexample :
  path_exists fs0 (DATA_DIR env_offline) = false /\
  calls (run (load_images_processing urls0 env_offline) fs0) =
  [Exists (DATA_DIR env_offline); Mkdir (DATA_DIR env_offline); Print download_msg;
   Download url_a (DATA_DIR env_offline)] /\
  ~ In (Download url_b (DATA_DIR env_offline))
       (calls (run (load_images_processing urls0 env_offline) fs0)).
Proof.
  split; [vm_compute; reflexivity|]. split; [vm_compute; reflexivity|].
  vm_compute. intros [H | [H | [H | [H | []]]]]; discriminate.
Qed.

(** C3 (amended).  When [DATA_DIR] is absent, the run first checks it, then
    calls [os.mkdir(DATA_DIR)]; if that raises, nothing else happens.
    Otherwise it prints its message and calls [download_images] with
    target [DATA_DIR] on the URLs of [URLS] one at a time, in list order,
    each at most once: on the whole list when the run completes, and when
    the run raises [x], on [pre ++ [u]] where the calls on [pre] completed,
    the call on [u] raised [x], and the run ended right there. *)
Theorem load_images_processing_download_order URLS e s :
  path_exists s (DATA_DIR e) = false ->
  exists rest,
    calls (run (load_images_processing URLS e) s) =
      (Exists (DATA_DIR e) :: Mkdir (DATA_DIR e) :: rest)%list /\
    ((rest = [] /\ exists x, mkdir_err e (DATA_DIR e) = Some x /\
                            outcome (run (load_images_processing URLS e) s) = inr x) \/
     (mkdir_err e (DATA_DIR e) = None /\
      exists k, k <= length URLS /\
       rest = Print download_msg :: map (fun u => Download u (DATA_DIR e)) (firstn k URLS) /\
       (outcome (run (load_images_processing URLS e) s) = inl tt -> k = length URLS) /\
       (forall x, outcome (run (load_images_processing URLS e) s) = inr x ->
          exists pre u post w1 w2,
            URLS = (pre ++ u :: post)%list /\ k = S (length pre) /\
            run (load_images_processing pre e) s = (inl tt, w1) /\
            download_images e u (DATA_DIR e) w1 = (inr x, w2) /\
            run (load_images_processing URLS e) s = (inr x, w2)))).
Proof.
  intros Hex.
  destruct (mkdir_err e (DATA_DIR e)) as [xm|] eqn:Hok.
  - unfold calls, outcome. rewrite (load_images_processing_refused URLS e s xm Hex Hok).
    exists []. split; [reflexivity|]. left. split; [reflexivity|]. exists xm. auto.
  - set (w0 := mkWorld (add_dir s (DATA_DIR e))
                 [(Exists (DATA_DIR e), s); (Mkdir (DATA_DIR e), s);
                  (Print download_msg, add_dir s (DATA_DIR e))]).
    assert (Hrun : forall us, run (load_images_processing us e) s = dl_loop e (DATA_DIR e) us w0)
      by (intros us; exact (load_images_processing_absent us e s Hex Hok)).
    assert (Hd0 : is_dir (w_fs w0) (DATA_DIR e) = true) by apply is_dir_add_dir.
    unfold calls, outcome. rewrite Hrun.
    destruct (dl_loop e (DATA_DIR e) URLS w0) as [[[]|x] w'] eqn:Hl.
    + destruct (dl_loop_spec e (DATA_DIR e) URLS w0 Hd0)
        as (k & t & Hk & Hlog & Hmap & _ & _ & Hr & _).
      rewrite Hl in Hlog, Hr. simpl in Hlog, Hr. cbn [snd fst]. rewrite Hlog. simpl. rewrite Hmap.
      eexists. split; [reflexivity|]. right. split; [reflexivity|].
      exists k. repeat split; auto.
      * intros H. exact (proj1 (Hr H)).
      * intros y Hy. discriminate.
    + destruct (dl_loop_fail e (DATA_DIR e) URLS w0 x w' Hl)
        as (pre & u & post & w1 & HU & Hpre & Hu).
      destruct (dl_loop_spec e (DATA_DIR e) pre w0 Hd0)
        as (k & t & _ & Hlog & Hmap & _ & _ & Hr & _).
      rewrite Hpre in Hlog, Hr. simpl in Hlog, Hr.
      destruct (Hr eq_refl) as [Hk _]. subst k. rewrite firstn_all in Hmap.
      assert (Hlog' : w_log w' = (w_log w0 ++ t ++ [(Download u (DATA_DIR e), w_fs w1)])%list).
      { pose proof (download_images_log e u (DATA_DIR e) w1) as HL. rewrite Hu in HL.
        simpl in HL. rewrite HL, Hlog, app_assoc. reflexivity. }
      cbn [snd fst]. rewrite Hlog'. simpl. rewrite map_app, Hmap.
      eexists. split; [reflexivity|]. right. split; [reflexivity|].
      exists (S (length pre)). repeat split.
      * rewrite HU, length_app. simpl. lia.
      * rewrite HU. replace (S (length pre)) with (length pre + 1) by lia.
        rewrite firstn_app_2. simpl. rewrite map_app. reflexivity.
      * intros H. discriminate.
      * intros y Hy. injection Hy as <-.
        exists pre, u, post, w1, w'.
        repeat split; auto; rewrite Hrun; assumption.
Qed.

Lemma load_images_processing_download_order_witness :
  path_exists fs0 (DATA_DIR env_flaky) = false /\
  exists rest,
    calls (run (load_images_processing urls0 env_flaky) fs0) =
      (Exists (DATA_DIR env_flaky) :: Mkdir (DATA_DIR env_flaky) :: rest)%list /\
    ((rest = [] /\ exists x, mkdir_err env_flaky (DATA_DIR env_flaky) = Some x /\
                            outcome (run (load_images_processing urls0 env_flaky) fs0) = inr x) \/
     (mkdir_err env_flaky (DATA_DIR env_flaky) = None /\
      exists k, k <= length urls0 /\
       rest = Print download_msg
                :: map (fun u => Download u (DATA_DIR env_flaky)) (firstn k urls0) /\
       (outcome (run (load_images_processing urls0 env_flaky) fs0) = inl tt -> k = length urls0) /\
       (forall x, outcome (run (load_images_processing urls0 env_flaky) fs0) = inr x ->
          exists pre u post w1 w2,
            urls0 = (pre ++ u :: post)%list /\ k = S (length pre) /\
            run (load_images_processing pre env_flaky) fs0 = (inl tt, w1) /\
            download_images env_flaky u (DATA_DIR env_flaky) w1 = (inr x, w2) /\
            run (load_images_processing urls0 env_flaky) fs0 = (inr x, w2)))).
Proof.
  split; [vm_compute; reflexivity|].
  apply (load_images_processing_download_order urls0 env_flaky fs0). vm_compute. reflexivity.
Defined.

(** ** Claims about [load_images_segmentation.py] *)

(** C4.  For either value of [SMALL_DATA], the script makes exactly one
    [load_dataset] call, for ["scene_parse_150"] with split ["train[:160]"]
    when [SMALL_DATA] is true and ["train"] when it is false. *)
Theorem load_images_segmentation_requests small e s :
  calls (run (load_images_segmentation_with small e) s) =
  [LoadDataset "scene_parse_150" (if small then "train[:160]" else "train")].
Proof.
  unfold calls, run, load_images_segmentation_with.
  destruct small; rewrite load_dataset_calls; reflexivity.
Qed.

(** C10.  As shipped, [SMALL_DATA] is false and the script's only
    [load_dataset] call requests the full ["train"] split of
    ["scene_parse_150"]. *)
Theorem load_images_segmentation_shipped_full e s :
  SMALL_DATA = false /\
  calls (run (load_images_segmentation e) s) = [LoadDataset "scene_parse_150" "train"].
Proof.
  split; [reflexivity|].
  unfold calls, run, load_images_segmentation, load_images_segmentation_with, SMALL_DATA.
  rewrite load_dataset_calls. reflexivity.
Qed.

(** ** The shape of every run of [load_images_processing.py] *)

(** The path a call names, if any. *)
Definition event_path (ev : event) : option string :=
  match ev with
  | Exists p | Mkdir p => Some p
  | Download _ d => Some d
  | Print _ | LoadDataset _ _ => None
  end.

(** Every run issues the existence check, then possibly [os.mkdir], then
    possibly the message and downloads into [DATA_DIR] of a prefix of
    [URLS]; every download is issued while [DATA_DIR] is a directory. *)
Lemma load_images_processing_shape URLS e s :
  Forall (fun p => forall u d, fst p = Download u d -> is_dir (snd p) (DATA_DIR e) = true)
         (w_log (snd (run (load_images_processing URLS e) s))) /\
  (calls (run (load_images_processing URLS e) s) = [Exists (DATA_DIR e)] \/
   calls (run (load_images_processing URLS e) s) = [Exists (DATA_DIR e); Mkdir (DATA_DIR e)] \/
   exists k, calls (run (load_images_processing URLS e) s) =
     Exists (DATA_DIR e) :: Mkdir (DATA_DIR e) :: Print download_msg
       :: map (fun u => Download u (DATA_DIR e)) (firstn k URLS)).
Proof.
  unfold calls.
  destruct (path_exists s (DATA_DIR e)) eqn:Hex.
  - rewrite (load_images_processing_present URLS e s Hex). simpl. split; [|left; reflexivity].
    repeat constructor. intros u d H. discriminate.
  - destruct (mkdir_err_cases e (DATA_DIR e)) as [Hok | [xm Hok]].
    + rewrite (load_images_processing_absent URLS e s Hex Hok).
      match goal with |- context [dl_loop e ?D URLS ?w] =>
        destruct (dl_loop_spec e D URLS w (is_dir_add_dir s D))
          as (k & t & _ & Hlog & Hmap & Hall & _ & _ & _) end.
      rewrite Hlog. split.
      * simpl. repeat constructor; try (intros u d H; discriminate).
        eapply Forall_impl; [|exact Hall]. intros p Hp u d _. exact Hp.
      * right; right. exists k. simpl. rewrite Hmap. reflexivity.
    + rewrite (load_images_processing_refused URLS e s xm Hex Hok). simpl.
      split; [|right; left; reflexivity].
      repeat constructor; intros u d H; discriminate.
Qed.

(** A run of the script on [pre ++ u :: post] whose run on [pre] completes
    and whose call [download_images(u, DATA_DIR)] then raises ends with that
    exception, in the state the raising call left. *)
Lemma load_images_processing_abort URLS e s pre u post w1 x w2 :
  URLS = (pre ++ u :: post)%list ->
  path_exists s (DATA_DIR e) = false ->
  run (load_images_processing pre e) s = (inl tt, w1) ->
  download_images e u (DATA_DIR e) w1 = (inr x, w2) ->
  run (load_images_processing URLS e) s = (inr x, w2).
Proof.
  intros -> Hex Hpre Hu.
  destruct (mkdir_err_cases e (DATA_DIR e)) as [Hok | [xm Hok]].
  - rewrite (load_images_processing_absent _ e s Hex Hok).
    rewrite (load_images_processing_absent _ e s Hex Hok) in Hpre.
    unfold dl_loop in *. rewrite for_each_app. unfold bind at 1. rewrite Hpre.
    simpl. unfold bind. rewrite Hu. reflexivity.
  - rewrite (load_images_processing_refused _ e s xm Hex Hok) in Hpre. discriminate.
Qed.

(** After a completed run on [pre] that started without the cache, the
    cache is a directory. *)
Lemma load_images_processing_ok_dir URLS e s w1 :
  path_exists s (DATA_DIR e) = false ->
  run (load_images_processing URLS e) s = (inl tt, w1) ->
  is_dir (w_fs w1) (DATA_DIR e) = true.
Proof.
  intros Hex Hrun.
  destruct (mkdir_err_cases e (DATA_DIR e)) as [Hok | [xm Hok]].
  - rewrite (load_images_processing_absent URLS e s Hex Hok) in Hrun.
    match type of Hrun with dl_loop e ?D URLS ?w = _ =>
      destruct (dl_loop_spec e D URLS w (is_dir_add_dir s D))
        as (k & t & _ & _ & _ & _ & Hdirs & _ & _) end.
    rewrite Hrun in Hdirs. simpl in Hdirs.
    rewrite (is_dir_same_dirs (add_dir s (DATA_DIR e)) _ _ Hdirs). apply is_dir_add_dir.
  - rewrite (load_images_processing_refused URLS e s xm Hex Hok) in Hrun. discriminate.
Qed.

(** C5.  Neither script catches an exception.  In the download script, if
    the run on the URLs before [u] completes and [download_images(u,
    DATA_DIR)] then raises [x], the run on [pre ++ u :: post] raises [x] and
    ends in the state the raising call left: no URL of [post] is
    requested.  In the dataset script, an exception [y] of [load_dataset] is
    the outcome of the run. *)
Theorem scripts_propagate_exceptions URLS e s pre u post w1 x w2 (small : bool) (y : exn) :
  URLS = (pre ++ u :: post)%list ->
  path_exists s (DATA_DIR e) = false ->
  run (load_images_processing pre e) s = (inl tt, w1) ->
  download_images e u (DATA_DIR e) w1 = (inr x, w2) ->
  hub e DATASET_NAME (if small then "train[:160]" else "train") = inr y ->
  run (load_images_processing URLS e) s = (inr x, w2) /\
  outcome (run (load_images_segmentation_with small e) s) = inr y.
Proof.
  intros HU Hex Hpre Hu Hhub. split.
  - exact (load_images_processing_abort URLS e s pre u post w1 x w2 HU Hex Hpre Hu).
  - unfold outcome, run, load_images_segmentation_with.
    destruct small; unfold load_dataset, bind, log, raise; simpl; rewrite Hhub; reflexivity.
Qed.

Lemma scripts_propagate_exceptions_witness :
  exists w1 w2,
    urls0 = ([] ++ url_a :: [url_b])%list /\
    path_exists fs0 (DATA_DIR env_offline) = false /\
    run (load_images_processing [] env_offline) fs0 = (inl tt, w1) /\
    download_images env_offline url_a (DATA_DIR env_offline) w1 =
      (inr (DownloadError url_a), w2) /\
    hub env_offline DATASET_NAME "train" = inr (DatasetError DATASET_NAME "train") /\
    run (load_images_processing urls0 env_offline) fs0 = (inr (DownloadError url_a), w2) /\
    outcome (run (load_images_segmentation_with false env_offline) fs0) =
      inr (DatasetError DATASET_NAME "train").
Proof.
  eexists (snd (run (load_images_processing [] env_offline) fs0)).
  eexists (snd (download_images env_offline url_a (DATA_DIR env_offline)
                  (snd (run (load_images_processing [] env_offline) fs0)))).
  split; [reflexivity|]. split; [vm_compute; reflexivity|].
  split; [vm_compute; reflexivity|]. split; [vm_compute; reflexivity|].
  split; [reflexivity|].
  apply (scripts_propagate_exceptions urls0 env_offline fs0 [] url_a [url_b]
           (snd (run (load_images_processing [] env_offline) fs0))
           (DownloadError url_a)
           (snd (download_images env_offline url_a (DATA_DIR env_offline)
                   (snd (run (load_images_processing [] env_offline) fs0))))
           false (DatasetError DATASET_NAME "train")); vm_compute; reflexivity.
Defined.

(** C6 (counterexample).  Two runs that differ only in the working
    directory check and create different paths. *)
Lemma C6_counterexample :
  argv env_ok = argv env_elsewhere /\ environ env_ok = environ env_elsewhere /\
  DATA_DIR env_ok <> DATA_DIR env_elsewhere /\
  calls (run (load_images_processing urls0 env_ok) fs0) <>
  calls (run (load_images_processing urls0 env_elsewhere) fs0).
Proof.
  split; [reflexivity|]. split; [reflexivity|].
  split; vm_compute; intros H; discriminate.
Qed.

(** C6 (amended).  The path the script checks, creates and downloads into is
    [os.getcwd() + "/task_images"]: it depends on the process's working
    directory and on nothing else (not on the command line, environment
    variables, the URL list or the file system); every path named by a
    call of a run is that path. *)
Theorem cache_path_from_cwd URLS e s :
  DATA_DIR e = cwd e ++ "/task_images" /\
  Forall (fun ev => event_path ev = None \/ event_path ev = Some (cwd e ++ "/task_images"))
         (calls (run (load_images_processing URLS e) s)).
Proof.
  split; [reflexivity|].
  destruct (load_images_processing_shape URLS e s) as [_ Hc].
  apply Forall_forall. intros ev Hin.
  destruct Hc as [H | [H | [k H]]]; rewrite H in Hin; simpl in Hin;
    repeat (destruct Hin as [<- | Hin]; [simpl; auto|]); try contradiction.
  apply in_map_iff in Hin as [v [<- _]]. right. reflexivity.
Qed.

(** C7.  Every [download_images] call of a run targets [DATA_DIR], is issued
    while [DATA_DIR] is a directory, and is preceded in the run by the call
    [os.mkdir(DATA_DIR)]. *)
Theorem downloads_after_mkdir URLS e s l1 p l2 u d :
  w_log (snd (run (load_images_processing URLS e) s)) = (l1 ++ p :: l2)%list ->
  fst p = Download u d ->
  d = DATA_DIR e /\ is_dir (snd p) (DATA_DIR e) = true /\ In (Mkdir (DATA_DIR e)) (map fst l1).
Proof.
  intros Hlog Hp.
  destruct (load_images_processing_shape URLS e s) as [Hall Hc].
  assert (Hin : In p (w_log (snd (run (load_images_processing URLS e) s)))).
  { rewrite Hlog. apply in_elt. }
  assert (Hcalls : calls (run (load_images_processing URLS e) s) =
                   (map fst l1 ++ Download u d :: map fst l2)%list).
  { unfold calls. rewrite Hlog, map_app. simpl. rewrite Hp. reflexivity. }
  rewrite Forall_forall in Hall.
  split; [|split; [exact (Hall p Hin u d Hp)|]].
  - destruct Hc as [H | [H | [k H]]]; rewrite H in Hcalls.
    + destruct (map fst l1) as [|a [|b l]]; simpl in Hcalls; discriminate.
    + destruct (map fst l1) as [|a [|b [|c l]]]; simpl in Hcalls; discriminate.
    + destruct (map fst l1) as [|a [|b [|c l]]]; simpl in Hcalls; try discriminate.
      injection Hcalls as _ _ _ Hrest.
      assert (Hd : In (Download u d) (map (fun u => Download u (DATA_DIR e)) (firstn k URLS))).
      { rewrite Hrest. apply in_elt. }
      apply in_map_iff in Hd as [v [Hv _]]. congruence.
  - destruct Hc as [H | [H | [k H]]]; rewrite H in Hcalls.
    + destruct (map fst l1) as [|a [|b l]]; simpl in Hcalls; discriminate.
    + destruct (map fst l1) as [|a [|b [|c l]]]; simpl in Hcalls; discriminate.
    + destruct (map fst l1) as [|a [|b [|c l]]]; simpl in Hcalls; try discriminate.
      injection Hcalls as _ Hb _ _. subst b. simpl. auto.
Qed.

Lemma downloads_after_mkdir_witness :
  w_log (snd (run (load_images_processing urls0 env_ok) fs0)) =
    (firstn 3 (w_log (snd (run (load_images_processing urls0 env_ok) fs0)))
     ++ nth 3 (w_log (snd (run (load_images_processing urls0 env_ok) fs0))) (Print "", fs0)
     :: skipn 4 (w_log (snd (run (load_images_processing urls0 env_ok) fs0))))%list /\
  fst (nth 3 (w_log (snd (run (load_images_processing urls0 env_ok) fs0))) (Print "", fs0)) =
    Download url_a (DATA_DIR env_ok) /\
  DATA_DIR env_ok = DATA_DIR env_ok /\
  is_dir (snd (nth 3 (w_log (snd (run (load_images_processing urls0 env_ok) fs0))) (Print "", fs0)))
    (DATA_DIR env_ok) = true /\
  In (Mkdir (DATA_DIR env_ok))
     (map fst (firstn 3 (w_log (snd (run (load_images_processing urls0 env_ok) fs0))))).
Proof.
  split; [vm_compute; reflexivity|]. split; [vm_compute; reflexivity|].
  apply (downloads_after_mkdir urls0 env_ok fs0 _ _
           (skipn 4 (w_log (snd (run (load_images_processing urls0 env_ok) fs0)))) url_a);
    vm_compute; reflexivity.
Defined.

Lemma DATA_DIR_cwd e e' : cwd e' = cwd e -> DATA_DIR e' = DATA_DIR e.
Proof. unfold DATA_DIR, Path, os_getcwd. intros ->. reflexivity. Qed.

(** C8.  A run that created the cache and then fails in [download_images]
    ends in the state the failing call left: the script rolls nothing
    back.  The cache directory is still there; every file present before
    the failing call is still there unchanged, except the one file that
    call was writing, which may now hold a partial payload; no file path
    disappears.  Any later run from the same working directory, whatever
    its URL list, network or permissions, then only checks the path and
    does nothing else: the missing downloads are never retried. *)
Theorem partial_failure_left_in_place URLS e s pre u post w1 x w2 URLS' e' :
  URLS = (pre ++ u :: post)%list ->
  path_exists s (DATA_DIR e) = false ->
  run (load_images_processing pre e) s = (inl tt, w1) ->
  download_images e u (DATA_DIR e) w1 = (inr x, w2) ->
  cwd e' = cwd e ->
  final_fs (run (load_images_processing URLS e) s) = w_fs w2 /\
  is_dir (final_fs (run (load_images_processing URLS e) s)) (DATA_DIR e) = true /\
  (forall f, In f (files (w_fs w1)) ->
     In f (files (final_fs (run (load_images_processing URLS e) s))) \/
     (fdir f = DATA_DIR e /\ fname f = basename u)) /\
  (forall f, In f (files (w_fs w1)) ->
     exists f', In f' (files (final_fs (run (load_images_processing URLS e) s))) /\
                fdir f' = fdir f /\ fname f' = fname f) /\
  run (load_images_processing URLS' e') (final_fs (run (load_images_processing URLS e) s)) =
    (inl tt, mkWorld (final_fs (run (load_images_processing URLS e) s))
                     [(Exists (DATA_DIR e'), final_fs (run (load_images_processing URLS e) s))]).
Proof.
  intros HU Hex Hpre Hu Hcwd.
  pose proof (load_images_processing_ok_dir pre e s w1 Hex Hpre) as Hd1.
  assert (Hfs : final_fs (run (load_images_processing URLS e) s) = w_fs w2).
  { unfold final_fs. rewrite (load_images_processing_abort URLS e s pre u post w1 x w2 HU Hex Hpre Hu).
    reflexivity. }
  rewrite Hfs.
  rewrite (download_images_step e u _ w1 Hd1) in Hu.
  assert (Hw2 : (w_fs w2 = w_fs w1 \/
                 exists part, w_fs w2 = write_file (w_fs w1) (DATA_DIR e) (basename u) part)).
  { destruct (net e u) as [data|y|part y]; [discriminate| |];
      injection Hu as _ <-; simpl; eauto. }
  assert (Hkeep : forall f, In f (files (w_fs w1)) ->
            In f (files (w_fs w2)) \/ (fdir f = DATA_DIR e /\ fname f = basename u)).
  { intros f Hf. destruct Hw2 as [-> | [part ->]]; [left; exact Hf|].
    apply write_file_in. exact Hf. }
  assert (Hd2 : is_dir (w_fs w2) (DATA_DIR e) = true).
  { destruct Hw2 as [-> | [part ->]]; exact Hd1. }
  split; [reflexivity|]. split; [exact Hd2|]. split; [exact Hkeep|]. split.
  - intros f Hf. destruct (Hkeep f Hf) as [Hin | [H1 H2]].
    + exists f. auto.
    + destruct Hw2 as [Heq | [part Heq]].
      * exists f. rewrite Heq. auto.
      * exists (mkFile (DATA_DIR e) (basename u) part). rewrite Heq. simpl. auto.
  - apply load_images_processing_present.
    rewrite (DATA_DIR_cwd e e' Hcwd). apply is_dir_path_exists. exact Hd2.
Qed.

Lemma partial_failure_left_in_place_witness :
  path_exists fs0 (DATA_DIR env_flaky) = false /\
  final_fs (run (load_images_processing urls0 env_flaky) fs0) =
    w_fs (snd (download_images env_flaky url_b (DATA_DIR env_flaky)
                 (snd (run (load_images_processing [url_a] env_flaky) fs0)))) /\
  is_dir (final_fs (run (load_images_processing urls0 env_flaky) fs0))
    (DATA_DIR env_flaky) = true /\
  (forall f, In f (files (w_fs (snd (run (load_images_processing [url_a] env_flaky) fs0)))) ->
     In f (files (final_fs (run (load_images_processing urls0 env_flaky) fs0))) \/
     (fdir f = DATA_DIR env_flaky /\ fname f = basename url_b)) /\
  (forall f, In f (files (w_fs (snd (run (load_images_processing [url_a] env_flaky) fs0)))) ->
     exists f', In f' (files (final_fs (run (load_images_processing urls0 env_flaky) fs0))) /\
                fdir f' = fdir f /\ fname f' = fname f) /\
  run (load_images_processing urls0 env_ok) (final_fs (run (load_images_processing urls0 env_flaky) fs0)) =
    (inl tt, mkWorld (final_fs (run (load_images_processing urls0 env_flaky) fs0))
                     [(Exists (DATA_DIR env_ok), final_fs (run (load_images_processing urls0 env_flaky) fs0))]).
Proof.
  split; [vm_compute; reflexivity|].
  apply (partial_failure_left_in_place urls0 env_flaky fs0 [url_a] url_b []
           (snd (run (load_images_processing [url_a] env_flaky) fs0))
           (DownloadError url_b)
           (snd (download_images env_flaky url_b (DATA_DIR env_flaky)
                   (snd (run (load_images_processing [url_a] env_flaky) fs0))))
           urls0 env_ok); vm_compute; reflexivity.
Defined.

(** C9 (counterexample).  On a read-only file system the first run's
    [os.mkdir] raises, and the second run does not find [DATA_DIR]: it
    calls [os.mkdir] again. *)
Lemma C9_counterexample :
  path_exists (final_fs (run (load_images_processing urls0 env_readonly) fs0))
    (DATA_DIR env_readonly) = false /\
  calls (run (load_images_processing urls0 env_readonly)
           (final_fs (run (load_images_processing urls0 env_readonly) fs0))) =
    [Exists (DATA_DIR env_readonly); Mkdir (DATA_DIR env_readonly)].
Proof. split; vm_compute; reflexivity. Qed.

(** C9 (amended).  Running the script a second time, in the same
    environment, on the file system the first run left (completed or not)
    leaves that file system unchanged.  The second run only checks the
    path, unless [os.mkdir] raised in the first run: then the second run
    calls [os.mkdir] again, which raises the same exception. *)
Theorem load_images_processing_idempotent URLS e s :
  final_fs (run (load_images_processing URLS e) (final_fs (run (load_images_processing URLS e) s))) =
    final_fs (run (load_images_processing URLS e) s) /\
  (calls (run (load_images_processing URLS e) (final_fs (run (load_images_processing URLS e) s))) =
     [Exists (DATA_DIR e)] \/
   exists x, mkdir_err e (DATA_DIR e) = Some x /\
     outcome (run (load_images_processing URLS e) s) = inr x /\
     outcome (run (load_images_processing URLS e) (final_fs (run (load_images_processing URLS e) s))) = inr x /\
     calls (run (load_images_processing URLS e) (final_fs (run (load_images_processing URLS e) s))) =
       [Exists (DATA_DIR e); Mkdir (DATA_DIR e)]).
Proof.
  unfold final_fs, calls, outcome.
  destruct (path_exists s (DATA_DIR e)) eqn:Hex.
  - rewrite (load_images_processing_present URLS e s Hex). simpl.
    rewrite (load_images_processing_present URLS e s Hex). simpl. auto.
  - destruct (mkdir_err_cases e (DATA_DIR e)) as [Hok | [xm Hok]].
    + rewrite (load_images_processing_absent URLS e s Hex Hok).
      match goal with |- context [dl_loop e ?D URLS ?w] =>
        destruct (dl_loop_spec e D URLS w (is_dir_add_dir s D))
          as (k & t & _ & _ & _ & _ & Hdirs & _ & _) end.
      assert (Hd : path_exists (w_fs (snd (dl_loop e (DATA_DIR e) URLS
                     (mkWorld (add_dir s (DATA_DIR e))
                        [(Exists (DATA_DIR e), s); (Mkdir (DATA_DIR e), s);
                         (Print download_msg, add_dir s (DATA_DIR e))])))) (DATA_DIR e) = true).
      { apply is_dir_path_exists. rewrite (is_dir_same_dirs (add_dir s (DATA_DIR e)) _ _ Hdirs).
        apply is_dir_add_dir. }
      rewrite (load_images_processing_present URLS e _ Hd). simpl. auto.
    + rewrite (load_images_processing_refused URLS e s xm Hex Hok). simpl.
      rewrite (load_images_processing_refused URLS e s xm Hex Hok). simpl.
      split; [reflexivity|]. right. exists xm. auto.
Qed.

(** ** Further properties of [load_images_processing.py] *)

(** The download loop over an existing directory keeps every file outside
    that directory. *)
Lemma dl_loop_frame e D us w :
  is_dir (w_fs w) D = true ->
  forall f, In f (files (w_fs w)) -> fdir f <> D ->
            In f (files (w_fs (snd (dl_loop e D us w)))).
Proof.
  revert w. induction us as [|u us IH]; intros w Hd f Hf Hne.
  - exact Hf.
  - assert (Hstep : dl_loop e D (u :: us) w = (download_images e u D ;; dl_loop e D us) w)
      by reflexivity.
    rewrite Hstep. unfold bind. rewrite (download_images_step e u D w Hd).
    destruct (net e u) as [data|y|part y]; simpl.
    + apply IH; [exact Hd | apply write_file_keeps | ]; assumption.
    + exact Hf.
    + apply write_file_keeps; assumption.
Qed.

(** X1.  A run removes no directory and creates at most [DATA_DIR]; every
    file that lies outside [DATA_DIR] before the run is still there after it,
    whatever the outcome. *)
Theorem load_images_processing_frame URLS e s :
  (dirs (final_fs (run (load_images_processing URLS e) s)) = dirs s \/
   dirs (final_fs (run (load_images_processing URLS e) s)) = DATA_DIR e :: dirs s) /\
  (forall f, In f (files s) -> fdir f <> DATA_DIR e ->
     In f (files (final_fs (run (load_images_processing URLS e) s)))).
Proof.
  unfold final_fs.
  destruct (path_exists s (DATA_DIR e)) eqn:Hex.
  - rewrite (load_images_processing_present URLS e s Hex). simpl. auto.
  - destruct (mkdir_err_cases e (DATA_DIR e)) as [Hok | [xm Hok]].
    + rewrite (load_images_processing_absent URLS e s Hex Hok).
      match goal with |- context [dl_loop e ?D URLS ?w] =>
        destruct (dl_loop_spec e D URLS w (is_dir_add_dir s D))
          as (k & t & _ & _ & _ & _ & Hdirs & _ & _);
        pose proof (dl_loop_frame e D URLS w (is_dir_add_dir s D)) as Hfr end.
      split; [right; exact Hdirs|]. intros f Hf Hne. apply Hfr; assumption.
    + rewrite (load_images_processing_refused URLS e s xm Hex Hok). simpl. auto.
Qed.

(** X3.  With an empty URL list, a run that starts without the cache and
    whose [os.mkdir] succeeds creates [DATA_DIR], prints its message and downloads nothing; every
    later run from the same working directory, whatever its URL list, then
    only checks the path and never downloads. *)
Theorem load_images_processing_empty_urls e s URLS' e' :
  path_exists s (DATA_DIR e) = false ->
  mkdir_ok e (DATA_DIR e) = true ->
  cwd e' = cwd e ->
  run (load_images_processing [] e) s =
    (inl tt, mkWorld (add_dir s (DATA_DIR e))
               [(Exists (DATA_DIR e), s); (Mkdir (DATA_DIR e), s);
                (Print download_msg, add_dir s (DATA_DIR e))]) /\
  run (load_images_processing URLS' e') (add_dir s (DATA_DIR e)) =
    (inl tt, mkWorld (add_dir s (DATA_DIR e))
               [(Exists (DATA_DIR e'), add_dir s (DATA_DIR e))]).
Proof.
  intros Hex Hok Hcwd. split.
  - rewrite (load_images_processing_absent [] e s Hex (mkdir_ok_err _ _ Hok)). reflexivity.
  - apply load_images_processing_present.
    rewrite (DATA_DIR_cwd e e' Hcwd). apply is_dir_path_exists. apply is_dir_add_dir.
Qed.

Lemma load_images_processing_empty_urls_witness :
  path_exists fs0 (DATA_DIR env_ok) = false /\
  mkdir_ok env_ok (DATA_DIR env_ok) = true /\
  cwd env_offline = cwd env_ok /\
  run (load_images_processing [] env_ok) fs0 =
    (inl tt, mkWorld (add_dir fs0 (DATA_DIR env_ok))
               [(Exists (DATA_DIR env_ok), fs0); (Mkdir (DATA_DIR env_ok), fs0);
                (Print download_msg, add_dir fs0 (DATA_DIR env_ok))]) /\
  run (load_images_processing urls0 env_offline) (add_dir fs0 (DATA_DIR env_ok)) =
    (inl tt, mkWorld (add_dir fs0 (DATA_DIR env_ok))
               [(Exists (DATA_DIR env_offline), add_dir fs0 (DATA_DIR env_ok))]).
Proof.
  split; [vm_compute; reflexivity|]. split; [reflexivity|]. split; [reflexivity|].
  apply (load_images_processing_empty_urls env_ok fs0 urls0 env_offline);
    vm_compute; reflexivity.
Defined.

(** X4.  The guard is [os.path.exists], not a directory test: when a
    regular file sits at the path [DATA_DIR] and no directory does, the run
    completes without creating the cache directory or downloading anything,
    and leaves the file system as it was. *)
Theorem load_images_processing_stray_file URLS e s f :
  In f (files s) -> file_path f = DATA_DIR e -> is_dir s (DATA_DIR e) = false ->
  outcome (run (load_images_processing URLS e) s) = inl tt /\
  final_fs (run (load_images_processing URLS e) s) = s /\
  is_dir (final_fs (run (load_images_processing URLS e) s)) (DATA_DIR e) = false /\
  calls (run (load_images_processing URLS e) s) = [Exists (DATA_DIR e)].
Proof.
  intros Hf Hp Hnd.
  assert (Hex : path_exists s (DATA_DIR e) = true).
  { unfold path_exists. apply orb_true_intro. right. apply existsb_exists.
    exists f. split; [exact Hf|]. rewrite Hp. apply String.eqb_refl. }
  unfold outcome, final_fs, calls.
  rewrite (load_images_processing_present URLS e s Hex). simpl. auto.
Qed.

Lemma load_images_processing_stray_file_witness :
  In (mkFile home "task_images" "stray") (files fs_stray) /\
  file_path (mkFile home "task_images" "stray") = DATA_DIR env_ok /\
  is_dir fs_stray (DATA_DIR env_ok) = false /\
  outcome (run (load_images_processing urls0 env_ok) fs_stray) = inl tt /\
  final_fs (run (load_images_processing urls0 env_ok) fs_stray) = fs_stray /\
  is_dir (final_fs (run (load_images_processing urls0 env_ok) fs_stray)) (DATA_DIR env_ok) = false /\
  calls (run (load_images_processing urls0 env_ok) fs_stray) = [Exists (DATA_DIR env_ok)].
Proof.
  split; [simpl; auto|]. split; [reflexivity|]. split; [vm_compute; reflexivity|].
  apply (load_images_processing_stray_file urls0 env_ok fs_stray (mkFile home "task_images" "stray"));
    [simpl; auto | reflexivity | vm_compute; reflexivity].
Defined.
